(** * HealthWhisperer: the Web Notifications helper (assets/notifications.js)

    The script installs four globals on [window]: [hwPermissionStatus],
    [hwRequestPermission], [hwNotify] and [hwIsInIframe].  Each is a thin
    wrapper around the host's Notification interface.  This development
    embeds the four functions over an explicit model of the host and proves
    the contract of the bridge.

    The host is whatever browser the page runs in, so it is a parameter: a
    record of the operations the script performs on it, over a state of the
    host's own.  Every call the script makes to the host is logged, so that
    "a notification was displayed" and "the prompt was not invoked" are
    statements about a run. *)

From Stdlib Require Import String List Bool ZArith Lia.
From Stdlib Require Import Floats.SpecFloat.
Import ListNotations.

Set Implicit Arguments.

(** ** JavaScript values *)

Module JS.

(** The language's value types.  Numbers are IEEE doubles, kept in the
    specification form of the Standard Library; objects and symbols are
    known by their identity only. *)
Inductive value : Type :=
| VUndefined
| VNull
| VBool (b : bool)
| VNumber (x : spec_float)
| VBigInt (z : Z)
| VString (s : string)
| VSymbol (id : nat)
| VObject (ref : nat).

(** ToBoolean. *)
Definition to_boolean (v : value) : bool :=
  match v with
  | VUndefined | VNull => false
  | VBool b => b
  | VNumber (S754_zero _) | VNumber S754_nan => false
  | VNumber _ => true
  | VBigInt z => negb (Z.eqb z 0)
  | VString s => negb (String.eqb s EmptyString)
  | VSymbol _ | VObject _ => true
  end.

(** [a === b]. *)
Definition strict_equal (a b : value) : bool :=
  match a, b with
  | VUndefined, VUndefined => true
  | VNull, VNull => true
  | VBool x, VBool y => Bool.eqb x y
  | VNumber x, VNumber y => SFeqb x y
  | VBigInt x, VBigInt y => Z.eqb x y
  | VString x, VString y => String.eqb x y
  | VSymbol x, VSymbol y => Nat.eqb x y
  | VObject x, VObject y => Nat.eqb x y
  | _, _ => false
  end.

(** [a !== b]. *)
Definition strict_not_equal (a b : value) : bool := negb (strict_equal a b).

(** [a || b]: both operands are values here, so there is nothing to
    short-circuit but the choice. *)
Definition or_else (a b : value) : value := if to_boolean a then a else b.

(** A parameter the caller left out is [undefined]. *)
Definition argument (args : list value) (i : nat) : value := nth i args VUndefined.

(** How a synchronous call into the host ends. *)
Inductive completion (A : Type) : Type :=
| Normal (a : A)
| Throw (e : value).
Arguments Throw {A} e.

(** The promise an async function hands to its caller. *)
Inductive settled (A : Type) : Type :=
| Fulfilled (a : A)
| Rejected (e : value)
| Pending.
Arguments Rejected {A} e.
Arguments Pending {A}.

End JS.
Import JS.

(** ** The host *)

(** The second argument of [new Notification(title, options)], as the script
    builds it. *)
Record NotificationOptions : Type := { body : value; tag : value }.

(** The arguments of line 17: [title || 'Health Whisperer'] and
    [{ body: body || '', tag: 'health-whisperer' }]. *)
Definition notification_title (title : value) : value :=
  or_else title (VString "Health Whisperer").

Definition notification_options (body : value) : NotificationOptions :=
  {| body := or_else body (VString ""); tag := VString "health-whisperer" |}.

(** What [await Notification.requestPermission()] comes to.  A host whose
    function returns something that is no promise falls under [Resolves]:
    awaiting a plain value yields that value. *)
Inductive prompt : Type :=
| CallThrows (e : value)
| Resolves (r : value)
| Rejects (e : value)
| NeverSettles.

(** The operations of the host that the script uses.  Testing
    ['Notification' in window] is a plain test of the property's presence.
    Everything else may throw: the calls, the window accessors, and the
    read of [Notification.permission], which throws when the property is in
    [window] but holds nothing to read from ([window.Notification =
    undefined]).  [Notification_requestPermission] gives, with the outcome
    of the prompt, the state of the host at the time the awaiting function
    resumes. *)
Record Platform : Type := {
  state : Type;
  Notification_in_window : state -> bool;
  Notification_permission : state -> completion value;
  Notification_requestPermission : state -> prompt * state;
  new_Notification : value -> NotificationOptions -> state -> completion value * state;
  set_onclick : value -> (state -> state) -> state -> completion unit * state;
  window_focus : state -> completion unit * state;
  window_top : state -> completion value;
  window_self : state -> completion value
}.

(** The calls a run makes to the host.  [ok] tells whether the call returned
    normally. *)
Inductive event : Type :=
| Prompted
| Constructed (title : value) (options : NotificationOptions) (ok : bool)
| OnclickAssigned (ok : bool).

(** The constructor calls of a run, in order. *)
Fixpoint constructor_calls (t : list event) : list (value * NotificationOptions) :=
  match t with
  | [] => []
  | Constructed title o _ :: t' => (title, o) :: constructor_calls t'
  | _ :: t' => constructor_calls t'
  end.

(** The notifications that came to exist: the constructor calls that
    returned. *)
Fixpoint displayed (t : list event) : list (value * NotificationOptions) :=
  match t with
  | [] => []
  | Constructed title o true :: t' => (title, o) :: displayed t'
  | _ :: t' => displayed t'
  end.

(** The number of times the permission prompt was invoked. *)
Definition prompts (t : list event) : nat :=
  length (filter (fun e => match e with Prompted => true | _ => false end) t).

(** ** The bridge *)

Section Bridge.

Variable P : Platform.

(** A run from a state of the host: the result, the host's state at the
    end, and the calls made. *)
Record run (A : Type) : Type := Run { result : A; final : state P; trace : list event }.

Definition M (A : Type) : Type := state P -> run (completion A).

Definition ret {A : Type} (a : A) : M A := fun s => Run (Normal a) s [].

Definition bind {A B : Type} (m : M A) (f : A -> M B) : M B := fun s =>
  match m s with
  | Run (Normal a) s1 t1 => let r := f a s1 in Run (result r) (final r) (t1 ++ trace r)
  | Run (Throw e) s1 t1 => Run (Throw e) s1 t1
  end.

(** [try { m } catch (e) { h e }]. *)
Definition try_catch {A : Type} (m : M A) (h : value -> M A) : M A := fun s =>
  match m s with
  | Run (Throw e) s1 t1 => let r := h e s1 in Run (result r) (final r) (t1 ++ trace r)
  | r => r
  end.

Notation "x <- m ;; k" := (bind m (fun x => k))
  (at level 100, m at next level, right associativity).

(** The reads. *)
Definition in_window_Notification : M bool := fun s => ret (Notification_in_window P s) s.
Definition permission : M value := fun s => Run (Notification_permission P s) s [].
Definition top : M value := fun s => Run (window_top P s) s [].
Definition self : M value := fun s => Run (window_self P s) s [].

(** The calls, each logged. *)
Definition construct (title : value) (o : NotificationOptions) : M value := fun s =>
  match new_Notification P title o s with
  | (Normal n, s1) => Run (Normal n) s1 [Constructed title o true]
  | (Throw e, s1) => Run (Throw e) s1 [Constructed title o false]
  end.

Definition focus : M unit := fun s =>
  let (c, s1) := window_focus P s in Run c s1 [].

(** [() => { try{ window.focus(); }catch(e){} }], as the host runs it on a
    click. *)
Definition onclick : state P -> state P := fun s =>
  final (try_catch focus (fun _ => ret tt) s).

Definition assign_onclick (n : value) : M unit := fun s =>
  match set_onclick P n onclick s with
  | (Normal u, s1) => Run (Normal u) s1 [OnclickAssigned true]
  | (Throw e, s1) => Run (Throw e) s1 [OnclickAssigned false]
  end.

(** [permissionStatus] (lines 3-6). *)
Definition permissionStatus : M value :=
  present <- in_window_Notification ;;
  if negb present then ret (VString "unsupported")
  else permission.

(** [notify] (lines 13-21).  The arguments of its constructor call are
    [notification_title] and [notification_options], defined with the
    host. *)
Definition notify (title body : value) : M value :=
  present <- in_window_Notification ;;
  if negb present then ret (VString "unsupported") else
  p <- permission ;;
  if strict_not_equal p (VString "granted") then ret (VString "blocked") else
  try_catch
    (n <- construct (notification_title title) (notification_options body) ;;
     _ <- try_catch (assign_onclick n) (fun _ => ret tt) ;;
     ret (VString "shown"))
    (fun _ => ret (VString "blocked")).

(** [isInIframe] (lines 23-25). *)
Definition isInIframe : M value :=
  try_catch
    (t <- top ;;
     w <- self ;;
     ret (VBool (strict_not_equal t w)))
    (fun _ => ret (VBool true)).

(** The promise of an async function whose body ran to the end. *)
Definition async {A : Type} (r : run (completion A)) : run (settled A) :=
  Run (match result r with Normal a => Fulfilled a | Throw e => Rejected e end)
      (final r) (trace r).

(** [requestPermission] (lines 8-11), an async function: the caller gets a
    promise, and the run below is the body's, up to the point where the
    promise settles (or the point where it waits for ever). *)
Definition requestPermission : state P -> run (settled value) := fun s =>
  if negb (Notification_in_window P s) then async (ret (VString "unsupported") s)
  else
    let (o, s1) := Notification_requestPermission P s in
    let r :=
      match o with
      | Resolves v => async (ret v s1)
      | NeverSettles => Run Pending s1 []
      | CallThrows _ | Rejects _ => async (permissionStatus s1)
      end in
    Run (result r) (final r) (Prompted :: trace r).

(** The globals, called with a list of arguments as a page would. *)
Definition hwPermissionStatus (args : list value) : M value := permissionStatus.
Definition hwRequestPermission (args : list value) : state P -> run (settled value) :=
  requestPermission.
Definition hwNotify (args : list value) : M value :=
  notify (argument args 0) (argument args 1).
Definition hwIsInIframe (args : list value) : M value := isInIframe.

End Bridge.

Arguments Run {P A} result final trace.

(** ** Hosts to run the bridge on *)

(** A small host: its state is the current permission; the prompt answers
    [answer] and leaves the permission at [next]; the constructor behaves as
    [ctor] says; assigning [onclick] works iff [clickable]. *)
Definition host (present : bool) (answer : prompt) (next : value)
    (ctor : value -> NotificationOptions -> completion value) (clickable : bool)
    (top_window self_window : completion value) : Platform :=
  {| state := value;
     Notification_in_window := fun _ => present;
     Notification_permission := fun s => Normal s;
     Notification_requestPermission := fun _ => (answer, next);
     new_Notification := fun title o s => (ctor title o, s);
     set_onclick := fun _ _ s => (if clickable then Normal tt else Throw VNull, s);
     window_focus := fun s => (Normal tt, s);
     window_top := fun _ => top_window;
     window_self := fun _ => self_window |}.

(** A desktop browser showing the page at top level: the user answers the
    prompt with "granted", and notifications can be constructed. *)
Definition desktop : Platform :=
  host true (Resolves (VString "granted")) (VString "granted")
       (fun _ _ => Normal (VObject 7)) true
       (Normal (VObject 1)) (Normal (VObject 1)).

(** A browser without the Notification interface. *)
Definition bare : Platform :=
  host false NeverSettles VUndefined (fun _ _ => Throw VNull) true
       (Normal (VObject 1)) (Normal (VObject 1)).

(** A mobile browser: the interface is there, but the constructor is
    illegal (notifications go through a service worker), and the prompt is
    dismissed with an error while the permission turns "denied". *)
Definition mobile : Platform :=
  host true (Rejects (VObject 9)) (VString "denied")
       (fun _ _ => Throw (VObject 8)) true
       (Normal (VObject 1)) (Normal (VObject 1)).

(** The page inside a frame of another origin whose accessor throws. *)
Definition framed : Platform :=
  host true (Resolves (VString "default")) (VString "default")
       (fun _ _ => Normal (VObject 7)) false
       (Throw (VObject 5)) (Normal (VObject 2)).

(** A browser of the callback era: [Notification.requestPermission] takes
    a callback and returns nothing, so awaiting its result gives
    [undefined]. *)
Definition callback_era : Platform :=
  host true (Resolves VUndefined) (VString "granted")
       (fun _ _ => Normal (VObject 7)) true
       (Normal (VObject 1)) (Normal (VObject 1)).

(** A page where the property is there but holds nothing:
    [window.Notification = undefined].  ['Notification' in window] is true,
    and whatever is read from or called on [Notification] throws a
    TypeError. *)
Definition clobbered : Platform :=
  {| state := unit;
     Notification_in_window := fun _ => true;
     Notification_permission := fun _ => Throw (VObject 4);
     Notification_requestPermission := fun s => (CallThrows (VObject 4), s);
     new_Notification := fun _ _ s => (Throw (VObject 4), s);
     set_onclick := fun _ _ s => (Normal tt, s);
     window_focus := fun s => (Normal tt, s);
     window_top := fun _ => Normal (VObject 1);
     window_self := fun _ => Normal (VObject 1) |}.

(** A browser that keeps to the Notifications standard.  Its state is the
    user's consent; the prompt is shown only while the consent is still
    open, and the user then answers as [allows] says. *)
Inductive consent : Type := Granted | Denied | Default.

Definition consent_value (c : consent) : value :=
  VString match c with
          | Granted => "granted"
          | Denied => "denied"
          | Default => "default"
          end.

Definition ask (allows : bool) (c : consent) : consent :=
  match c with
  | Default => if allows then Granted else Denied
  | _ => c
  end.

Definition standard_browser (allows : bool) : Platform :=
  {| state := consent;
     Notification_in_window := fun _ => true;
     Notification_permission := fun c => Normal (consent_value c);
     Notification_requestPermission := fun c =>
       (Resolves (consent_value (ask allows c)), ask allows c);
     new_Notification := fun _ _ c => (Normal (VObject 7), c);
     set_onclick := fun _ _ c => (Normal tt, c);
     window_focus := fun c => (Normal tt, c);
     window_top := fun _ => Normal (VObject 1);
     window_self := fun _ => Normal (VObject 1) |}.

(** The sets of the data model. *)
Definition PermissionState : list value :=
  [VString "granted"; VString "denied"; VString "default"; VString "unsupported"].

Definition NotificationResult : list value :=
  [VString "shown"; VString "blocked"; VString "unsupported"].

(** A host that keeps to the Notifications standard reports one of the three
    permission values, as [Notification.permission] and as the answer of the
    prompt. *)
Definition standard_permission (v : value) : Prop :=
  v = VString "granted" \/ v = VString "denied" \/ v = VString "default".

Definition reports_standard (P : Platform) : Prop :=
  (forall s, exists v, Notification_permission P s = Normal v /\ standard_permission v) /\
  (forall s r s1, Notification_requestPermission P s = (Resolves r, s1) ->
                  standard_permission r).

(** ** The click handler and sequences of calls *)

(** The handler of line 18 as a computation:
    [() => { try{ window.focus(); }catch(e){} }].  [onclick] above is the
    change of state it makes. *)
Definition onclick_handler (P : Platform) : M P unit :=
  try_catch (focus P) (fun _ => ret P tt).

(** A desktop browser that refuses to give the window the focus. *)
Definition unfocusable : Platform :=
  {| state := value;
     Notification_in_window := fun _ => true;
     Notification_permission := fun s => Normal s;
     Notification_requestPermission := fun s => (Resolves s, s);
     new_Notification := fun _ _ s => (Normal (VObject 7), s);
     set_onclick := fun _ _ s => (Normal tt, s);
     window_focus := fun _ => (Throw (VObject 6), VString "focus refused");
     window_top := fun _ => Normal (VObject 1);
     window_self := fun _ => Normal (VObject 1) |}.

(** A page using the bridge: synchronous calls of the globals, one after the
    other, with the host free to change in between ([Elapse]: the user
    revokes the permission, the page is moved into a frame, ...). *)
Inductive action (P : Platform) : Type :=
| CallPermissionStatus
| CallNotify (title body : value)
| CallIsInIframe
| Elapse (f : state P -> state P).
Arguments CallPermissionStatus {P}.
Arguments CallNotify {P} title body.
Arguments CallIsInIframe {P}.
Arguments Elapse {P} f.

Definition act (P : Platform) (a : action P) (s : state P) : state P * list event :=
  match a with
  | CallPermissionStatus => let r := permissionStatus P s in (final r, trace r)
  | CallNotify title body => let r := notify P title body s in (final r, trace r)
  | CallIsInIframe => let r := isInIframe P s in (final r, trace r)
  | Elapse f => (f s, [])
  end.

Fixpoint session (P : Platform) (l : list (action P)) (s : state P) : state P * list event :=
  match l with
  | [] => (s, [])
  | a :: l' =>
      let (s1, t1) := act a s in
      let (s2, t2) := session l' s1 in
      (s2, t1 ++ t2)
  end.

(** The number of [notify] calls of a page. *)
Fixpoint notify_calls (P : Platform) (l : list (action P)) : nat :=
  match l with
  | [] => 0
  | CallNotify _ _ :: l' => S (notify_calls l')
  | _ :: l' => notify_calls l'
  end.

(** What the constructor may be given: a truthy title, a body that is truthy
    or the empty string, and the fixed tag. *)
Definition well_formed_call (c : value * NotificationOptions) : Prop :=
  to_boolean (fst c) = true /\
  (to_boolean (body (snd c)) = true \/ body (snd c) = VString "") /\
  tag (snd c) = VString "health-whisperer".

(** ** Runs on the example hosts *)

Example desktop_status :
  permissionStatus desktop (VString "default") = Run (P:=desktop) (Normal (VString "default")) (VString "default") [].
Proof. reflexivity. Qed.

Example desktop_notify :
  notify desktop (VString "T") (VString "B") (VString "granted") =
  Run (P:=desktop) (Normal (VString "shown")) (VString "granted")
      [Constructed (VString "T") {| body := VString "B"; tag := VString "health-whisperer" |} true;
       OnclickAssigned true].
Proof. reflexivity. Qed.

Example desktop_request :
  requestPermission desktop (VString "default") =
  Run (P:=desktop) (Fulfilled (VString "granted")) (VString "granted") [Prompted].
Proof. reflexivity. Qed.

Example mobile_notify :
  notify mobile (VString "T") (VString "B") (VString "granted") =
  Run (P:=mobile) (Normal (VString "blocked")) (VString "granted")
      [Constructed (VString "T") {| body := VString "B"; tag := VString "health-whisperer" |} false].
Proof. reflexivity. Qed.

Example mobile_request :
  requestPermission mobile (VString "default") =
  Run (P:=mobile) (Fulfilled (VString "denied")) (VString "denied") [Prompted].
Proof. reflexivity. Qed.

Example framed_notify :
  notify framed VUndefined VUndefined (VString "granted") =
  Run (P:=framed) (Normal (VString "shown")) (VString "granted")
      [Constructed (VString "Health Whisperer")
                   {| body := VString ""; tag := VString "health-whisperer" |} true;
       OnclickAssigned false].
Proof. reflexivity. Qed.

Example framed_iframe :
  isInIframe framed (VString "default") = Run (P:=framed) (Normal (VBool true)) (VString "default") [].
Proof. reflexivity. Qed.

Example desktop_iframe :
  isInIframe desktop (VString "default") = Run (P:=desktop) (Normal (VBool false)) (VString "default") [].
Proof. reflexivity. Qed.

Example clobbered_status :
  permissionStatus clobbered tt = Run (P:=clobbered) (Throw (VObject 4)) tt [].
Proof. reflexivity. Qed.

Example clobbered_notify :
  notify clobbered (VString "T") (VString "B") tt = Run (P:=clobbered) (Throw (VObject 4)) tt [].
Proof. reflexivity. Qed.

Example clobbered_request :
  requestPermission clobbered tt = Run (P:=clobbered) (Rejected (VObject 4)) tt [Prompted].
Proof. reflexivity. Qed.

(** ** Values: comparison and truthiness *)

Lemma strict_equal_string (v : value) (s : string) :
  strict_equal v (VString s) = true <-> v = VString s.
Proof.
  destruct v; simpl; try (split; [discriminate | congruence]).
  rewrite String.eqb_eq. split; congruence.
Qed.

Lemma strict_equal_object (a b : nat) :
  strict_equal (VObject a) (VObject b) = true <-> a = b.
Proof. simpl. apply Nat.eqb_eq. Qed.

Lemma not_granted (v : value) :
  strict_not_equal v (VString "granted") = true <-> v <> VString "granted".
Proof.
  unfold strict_not_equal. rewrite negb_true_iff, <- not_true_iff_false.
  now rewrite strict_equal_string.
Qed.

(** The falsy values are [undefined], [null], [false], the two zeros, [NaN],
    [0n] and the empty string. *)
Lemma falsy_values (v : value) :
  to_boolean v = false <->
  v = VUndefined \/ v = VNull \/ v = VBool false \/
  (exists sign, v = VNumber (S754_zero sign)) \/ v = VNumber S754_nan \/
  v = VBigInt 0 \/ v = VString "".
Proof.
  split.
  - destruct v as [ | | b | x | z | s | | ]; simpl; intros H; try discriminate; auto.
    + subst b. auto.
    + destruct x; try discriminate; eauto 6.
    + apply negb_false_iff, Z.eqb_eq in H. subst z. auto 7.
    + apply negb_false_iff, String.eqb_eq in H. subst s. auto 8.
  - intros [-> | [-> | [-> | [[sign ->] | [-> | [-> | ->]]]]]]; reflexivity.
Qed.

Lemma or_else_falsy (a b : value) : to_boolean a = false -> or_else a b = b.
Proof. unfold or_else. now intros ->. Qed.

Lemma or_else_truthy (a b : value) : to_boolean a = true -> or_else a b = a.
Proof. unfold or_else. now intros ->. Qed.

Lemma title_of_string (T : string) :
  T <> EmptyString -> notification_title (VString T) = VString T.
Proof.
  intros H. apply or_else_truthy. simpl.
  apply negb_true_iff, String.eqb_neq, H.
Qed.

Lemma options_of_string (B : string) :
  notification_options (VString B) =
  {| body := VString B; tag := VString "health-whisperer" |}.
Proof.
  unfold notification_options, or_else. simpl.
  destruct (String.eqb_spec B EmptyString) as [-> | _]; reflexivity.
Qed.

(** ** The paths through the four functions *)

Section Paths.

Variable P : Platform.
Implicit Types (s : state P) (title body : value).

Lemma permissionStatus_run s :
  permissionStatus P s =
  Run (if Notification_in_window P s then Notification_permission P s
       else Normal (VString "unsupported")) s [].
Proof.
  unfold permissionStatus, bind, in_window_Notification, permission, ret.
  destruct (Notification_in_window P s); [| reflexivity].
  simpl. destruct (Notification_permission P s); reflexivity.
Qed.

Lemma notify_absent s title body :
  Notification_in_window P s = false ->
  notify P title body s = Run (Normal (VString "unsupported")) s [].
Proof.
  intros H. unfold notify, bind, in_window_Notification, ret. now rewrite H.
Qed.

(** The read of line 15 is outside the [try]: what it throws, [notify]
    throws. *)
Lemma notify_unreadable s title body e :
  Notification_in_window P s = true ->
  Notification_permission P s = Throw e ->
  notify P title body s = Run (Throw e) s [].
Proof.
  intros H Hp.
  unfold notify, bind, in_window_Notification, permission, ret.
  rewrite H. simpl. now rewrite Hp.
Qed.

Lemma notify_refused s title body v :
  Notification_in_window P s = true ->
  Notification_permission P s = Normal v ->
  v <> VString "granted" ->
  notify P title body s = Run (Normal (VString "blocked")) s [].
Proof.
  intros H Hp Hv. apply not_granted in Hv.
  unfold notify, bind, in_window_Notification, permission, ret.
  rewrite H. simpl. rewrite Hp. simpl. now rewrite Hv.
Qed.

Lemma notify_constructed s title body n s1 :
  Notification_in_window P s = true ->
  Notification_permission P s = Normal (VString "granted") ->
  new_Notification P (notification_title title) (notification_options body) s = (Normal n, s1) ->
  notify P title body s =
  Run (Normal (VString "shown"))
      (snd (set_onclick P n (onclick P) s1))
      [Constructed (notification_title title) (notification_options body) true;
       OnclickAssigned (match fst (set_onclick P n (onclick P) s1) with
                        | Normal _ => true | Throw _ => false end)].
Proof.
  intros H Hp Hc.
  unfold notify, bind, try_catch, in_window_Notification, permission, construct,
    assign_onclick, ret.
  rewrite H. simpl. rewrite Hp. simpl. rewrite Hc. simpl.
  destruct (set_onclick P n (onclick P) s1) as [[u | e] s2]; reflexivity.
Qed.

Lemma notify_construction_throws s title body e s1 :
  Notification_in_window P s = true ->
  Notification_permission P s = Normal (VString "granted") ->
  new_Notification P (notification_title title) (notification_options body) s = (Throw e, s1) ->
  notify P title body s =
  Run (Normal (VString "blocked")) s1
      [Constructed (notification_title title) (notification_options body) false].
Proof.
  intros H Hp Hc.
  unfold notify, bind, try_catch, in_window_Notification, permission, construct, ret.
  rewrite H. simpl. rewrite Hp. simpl. now rewrite Hc.
Qed.

Lemma requestPermission_absent s :
  Notification_in_window P s = false ->
  requestPermission P s = Run (Fulfilled (VString "unsupported")) s [].
Proof. intros H. unfold requestPermission. now rewrite H. Qed.

(** With the interface present the prompt is invoked, and the promise
    settles as the prompt says, or, when the prompt fails, as
    [permissionStatus] completes in the state the host is in by then. *)
Lemma requestPermission_prompted s :
  Notification_in_window P s = true ->
  requestPermission P s =
  let (o, s1) := Notification_requestPermission P s in
  Run (match o with
       | Resolves v => Fulfilled v
       | NeverSettles => Pending
       | CallThrows _ | Rejects _ =>
           match result (permissionStatus P s1) with
           | Normal v => Fulfilled v
           | Throw e => Rejected e
           end
       end) s1 [Prompted].
Proof.
  intros H. unfold requestPermission. rewrite H. cbn [negb].
  destruct (Notification_requestPermission P s) as [[e | v | e | ] s1];
    unfold async; rewrite ?permissionStatus_run; reflexivity.
Qed.

Lemma isInIframe_run s :
  isInIframe P s =
  Run (Normal (VBool match window_top P s, window_self P s with
                     | Normal t, Normal w => strict_not_equal t w
                     | _, _ => true
                     end)) s [].
Proof.
  unfold isInIframe, try_catch, bind, top, self, ret.
  destruct (window_top P s) as [t | e]; [| reflexivity].
  destruct (window_self P s) as [w | e]; reflexivity.
Qed.

(** The click handler swallows whatever [window.focus] throws: it is a
    function on states. *)
Lemma onclick_run s : onclick P s = snd (window_focus P s).
Proof.
  unfold onclick, try_catch, focus, ret.
  destruct (window_focus P s) as [[u | e] s1]; reflexivity.
Qed.

End Paths.

(** The five paths of [notify], by cases on the host. *)
Ltac notify_paths P s title body :=
  let Hin := fresh "Hin" in
  let Hp := fresh "Hp" in
  let Hg := fresh "Hg" in
  let Hc := fresh "Hc" in
  destruct (Notification_in_window P s) eqn:Hin;
  [ destruct (Notification_permission P s) as [?v | ?e] eqn:Hp;
    [ destruct (strict_equal v (VString "granted")) eqn:Hg;
      [ apply strict_equal_string in Hg; subst v;
        destruct (new_Notification P (notification_title title)
                    (notification_options body) s) as [[?n | ?e] ?s1] eqn:Hc;
        [ rewrite (notify_constructed _ _ _ _ Hin Hp Hc)
        | rewrite (notify_construction_throws _ _ _ _ Hin Hp Hc) ]
      | assert (v <> VString "granted")
          by (let Hv := fresh in
              intros Hv; apply strict_equal_string in Hv; congruence);
        rewrite (notify_refused _ _ title body Hin Hp) by assumption ]
    | rewrite (notify_unreadable _ _ title body Hin Hp) ]
  | rewrite (notify_absent _ _ title body Hin) ].

(** ** Where an error can surface *)


(** [notify] returns one of its three strings, unless the unguarded read of
    line 15 throws; then it throws the same. *)
Lemma notify_returns_or_throws (P : Platform) (s : state P) (title body : value) :
  (exists v, result (notify P title body s) = Normal v /\ In v NotificationResult) \/
  (exists e, result (notify P title body s) = Throw e /\
             Notification_in_window P s = true /\
             Notification_permission P s = Throw e).
Proof.
  notify_paths P s title body; cbn [result]; simpl; eauto 7.
Qed.

Lemma notify_throws_iff (P : Platform) (s : state P) (title body e : value) :
  result (notify P title body s) = Throw e <->
  Notification_in_window P s = true /\ Notification_permission P s = Throw e.
Proof.
  notify_paths P s title body; cbn [result]; split;
    try discriminate; try (intros [? ?]; discriminate).
  - intros H. injection H as <-. auto.
  - intros [_ H]. congruence.
Qed.



(** ** The contract of the bridge *)

(** C4. On a host without the Notification interface, [permissionStatus]
    and [notify] (whatever its arguments) return "unsupported", and
    [requestPermission] resolves to "unsupported"; none of them calls the
    host, so the prompt is not invoked. *)
Theorem unsupported_without_Notification (P : Platform) (s : state P) :
  Notification_in_window P s = false ->
  permissionStatus P s = Run (Normal (VString "unsupported")) s [] /\
  (forall title body, notify P title body s = Run (Normal (VString "unsupported")) s []) /\
  requestPermission P s = Run (Fulfilled (VString "unsupported")) s [] /\
  prompts (trace (requestPermission P s)) = 0.
Proof.
  intros H. repeat split.
  - rewrite permissionStatus_run, H. reflexivity.
  - intros title body. now apply notify_absent.
  - now apply requestPermission_absent.
  - now rewrite requestPermission_absent.
Qed.

Lemma unsupported_without_Notification_witness :
  Notification_in_window bare VUndefined = false /\
  requestPermission bare VUndefined = Run (P:=bare) (Fulfilled (VString "unsupported")) VUndefined [].
Proof.
  split; [reflexivity |].
  apply (unsupported_without_Notification bare VUndefined). reflexivity.
Defined.

(** C5, as the code has it.  On a host with the Notification interface,
    [permissionStatus] completes as the read of [Notification.permission]
    does: a value the host reports is returned as it is, whatever it is, and
    an error the read throws is thrown on to the caller, since line 5 is not
    guarded.  Either way nothing is called and the host is left as it
    was. *)
Theorem permissionStatus_reports_permission (P : Platform) (s : state P) :
  Notification_in_window P s = true ->
  (forall v, Notification_permission P s = Normal v ->
             permissionStatus P s = Run (Normal v) s []) /\
  (forall e, Notification_permission P s = Throw e ->
             permissionStatus P s = Run (Throw e) s []) /\
  final (permissionStatus P s) = s /\
  trace (permissionStatus P s) = [].
Proof.
  intros H. rewrite permissionStatus_run, H.
  repeat apply conj; try reflexivity; now intros ? ->.
Qed.

Lemma permissionStatus_reports_permission_witness :
  Notification_in_window desktop (VString "denied") = true /\
  permissionStatus desktop (VString "denied") =
  Run (P:=desktop) (Normal (VString "denied")) (VString "denied") [].
Proof.
  split; [reflexivity |].
  apply (permissionStatus_reports_permission desktop (VString "denied"));
    reflexivity.
Defined.

(** C5 as stated fails where the property is in [window] but holds nothing:
    the interface counts as present, and [permissionStatus] throws. *)
Lemma permissionStatus_throws_counterexample :
  Notification_in_window clobbered tt = true /\
  result (permissionStatus clobbered tt) = Throw (VObject 4) /\
  (forall v, result (permissionStatus clobbered tt) <> Normal v).
Proof. repeat split. discriminate. Qed.

(** C6. [isInIframe] returns [true] exactly when reading [window.top] or
    [window.self] throws or the two references are not strictly equal, and
    [false] exactly when both reads succeed and the references are strictly
    equal; it always returns a boolean and never throws. *)
Theorem isInIframe_true_iff (P : Platform) (s : state P) :
  (result (isInIframe P s) = Normal (VBool true) <->
     (exists e, window_top P s = Throw e) \/
     (exists e, window_self P s = Throw e) \/
     (exists t w, window_top P s = Normal t /\ window_self P s = Normal w /\
                  strict_not_equal t w = true)) /\
  (result (isInIframe P s) = Normal (VBool false) <->
     exists t w, window_top P s = Normal t /\ window_self P s = Normal w /\
                 strict_equal t w = true) /\
  (exists b, result (isInIframe P s) = Normal (VBool b)) /\
  (forall e, result (isInIframe P s) <> Throw e).
Proof.
  rewrite isInIframe_run. simpl. unfold strict_not_equal.
  destruct (window_top P s) as [t | e1];
    [destruct (window_self P s) as [w | e2]; [destruct (strict_equal t w) eqn:E |] |];
    simpl; (split; [split | split; [split | split]]); intros;
    repeat match goal with
           | H : _ \/ _ |- _ => destruct H
           | H : exists _, _ |- _ => destruct H
           | H : _ /\ _ |- _ => destruct H
           | H : Normal _ = Normal _ |- _ => injection H as H; subst
           end;
    try (rewrite E in *; simpl in *);
    try discriminate; try congruence; eauto 10;
    right; right; exists t, w; rewrite E; auto.
Qed.

(** For window objects, strictly equal means the same reference. *)
Lemma isInIframe_objects (P : Platform) (s : state P) (a b : nat) :
  window_top P s = Normal (VObject a) ->
  window_self P s = Normal (VObject b) ->
  result (isInIframe P s) = Normal (VBool (negb (Nat.eqb a b))).
Proof. intros Ht Hs. rewrite isInIframe_run, Ht, Hs. reflexivity. Qed.

(** C8. With the interface present and the permission "granted", [notify()]
    called without arguments calls the constructor once, with the title
    "Health Whisperer" and the empty string as body; when that call returns,
    this is the notification displayed. *)
Theorem notify_without_arguments (P : Platform) (s : state P) :
  Notification_in_window P s = true ->
  Notification_permission P s = Normal (VString "granted") ->
  constructor_calls (trace (hwNotify P [] s)) =
    [(VString "Health Whisperer", {| body := VString ""; tag := VString "health-whisperer" |})] /\
  (forall n s1,
     new_Notification P (VString "Health Whisperer")
       {| body := VString ""; tag := VString "health-whisperer" |} s = (Normal n, s1) ->
     result (hwNotify P [] s) = Normal (VString "shown") /\
     displayed (trace (hwNotify P [] s)) =
       [(VString "Health Whisperer",
         {| body := VString ""; tag := VString "health-whisperer" |})]).
Proof.
  intros H Hp. unfold hwNotify, argument. simpl nth.
  split.
  - destruct (new_Notification P (notification_title VUndefined)
                (notification_options VUndefined) s) as [[n | e] s1] eqn:E.
    + rewrite (notify_constructed _ _ _ _ H Hp E). reflexivity.
    + rewrite (notify_construction_throws _ _ _ _ H Hp E). reflexivity.
  - intros n s1 E.
    rewrite (notify_constructed _ _ VUndefined VUndefined H Hp E). split; reflexivity.
Qed.

Lemma notify_without_arguments_witness :
  Notification_in_window desktop (VString "granted") = true /\
  Notification_permission desktop (VString "granted") = Normal (VString "granted") /\
  constructor_calls (trace (hwNotify desktop [] (VString "granted"))) =
    [(VString "Health Whisperer", {| body := VString ""; tag := VString "health-whisperer" |})].
Proof.
  split; [reflexivity | split; [reflexivity |]].
  apply (notify_without_arguments desktop (VString "granted")); reflexivity.
Defined.

(** C10. With the interface present and the permission "granted", [notify]
    makes one constructor call; a falsy title (the empty string among them)
    is replaced by "Health Whisperer" and a falsy body by the empty string,
    while truthy arguments are passed as they are.  In particular the empty
    title is never the title of the call. *)
Theorem notify_defaults_for_falsy (P : Platform) (s : state P) (title body : value) :
  Notification_in_window P s = true ->
  Notification_permission P s = Normal (VString "granted") ->
  exists t b,
    constructor_calls (trace (notify P title body s)) =
      [(t, {| body := b; tag := VString "health-whisperer" |})] /\
    (to_boolean title = false -> t = VString "Health Whisperer") /\
    (to_boolean body = false -> b = VString "") /\
    (to_boolean title = true -> t = title) /\
    (to_boolean body = true -> b = body) /\
    (title = VString "" -> t <> title).
Proof.
  intros H Hp.
  exists (notification_title title), (or_else body (VString "")).
  split; [| repeat split].
  - destruct (new_Notification P (notification_title title)
                (notification_options body) s) as [[n | e] s1] eqn:E.
    + rewrite (notify_constructed _ _ _ _ H Hp E). reflexivity.
    + rewrite (notify_construction_throws _ _ _ _ H Hp E). reflexivity.
  - apply or_else_falsy.
  - apply or_else_falsy.
  - apply or_else_truthy.
  - apply or_else_truthy.
  - intros ->. discriminate.
Qed.

Lemma notify_defaults_for_falsy_witness :
  Notification_in_window desktop (VString "granted") = true /\
  Notification_permission desktop (VString "granted") = Normal (VString "granted") /\
  exists t b,
    constructor_calls (trace (notify desktop (VString "") VNull (VString "granted"))) =
      [(t, {| body := b; tag := VString "health-whisperer" |})] /\
    (to_boolean (VString "") = false -> t = VString "Health Whisperer") /\
    (to_boolean VNull = false -> b = VString "") /\
    (to_boolean (VString "") = true -> t = VString "") /\
    (to_boolean VNull = true -> b = VNull) /\
    (VString "" = VString "" -> t <> VString "").
Proof.
  split; [reflexivity | split; [reflexivity |]].
  apply (notify_defaults_for_falsy desktop (VString "granted") (VString "") VNull);
    reflexivity.
Defined.

(** C1, as the code has it.  With the interface present, the permission
    "granted" and a constructor call that returns, [notify(T, B)] for a
    non-empty string [T] and any string [B] returns "shown" and makes exactly
    one constructor call, which displays the notification with title [T],
    body [B] and tag "health-whisperer". *)
Theorem notify_shown (P : Platform) (s : state P) (T B : string) (n : value) (s1 : state P) :
  Notification_in_window P s = true ->
  Notification_permission P s = Normal (VString "granted") ->
  T <> EmptyString ->
  new_Notification P (VString T)
    {| body := VString B; tag := VString "health-whisperer" |} s = (Normal n, s1) ->
  result (notify P (VString T) (VString B) s) = Normal (VString "shown") /\
  displayed (trace (notify P (VString T) (VString B) s)) =
    [(VString T, {| body := VString B; tag := VString "health-whisperer" |})] /\
  constructor_calls (trace (notify P (VString T) (VString B) s)) =
    [(VString T, {| body := VString B; tag := VString "health-whisperer" |})].
Proof.
  intros H Hp HT Hc.
  rewrite <- (title_of_string HT), <- (options_of_string B) in Hc.
  rewrite (notify_constructed _ _ _ _ H Hp Hc), (title_of_string HT), options_of_string.
  repeat split.
Qed.

Lemma notify_shown_witness :
  result (notify desktop (VString "T") (VString "B") (VString "granted")) =
    Normal (VString "shown") /\
  displayed (trace (notify desktop (VString "T") (VString "B") (VString "granted"))) =
    [(VString "T", {| body := VString "B"; tag := VString "health-whisperer" |})] /\
  constructor_calls (trace (notify desktop (VString "T") (VString "B") (VString "granted"))) =
    [(VString "T", {| body := VString "B"; tag := VString "health-whisperer" |})].
Proof.
  apply (@notify_shown desktop (VString "granted") "T" "B" (VObject 7) (VString "granted"));
    [reflexivity | reflexivity | discriminate | reflexivity].
Defined.

(** C1 as stated fails at the empty title: on a host where everything the
    claim asks for holds, [notify("", "B")] returns "shown" but the
    notification displayed is titled "Health Whisperer", not "". *)
Lemma notify_empty_title_counterexample :
  Notification_in_window desktop (VString "granted") = true /\
  Notification_permission desktop (VString "granted") = Normal (VString "granted") /\
  (forall title o, fst (new_Notification desktop title o (VString "granted")) = Normal (VObject 7)) /\
  displayed (trace (notify desktop (VString "") (VString "B") (VString "granted"))) =
    [(VString "Health Whisperer",
      {| body := VString "B"; tag := VString "health-whisperer" |})] /\
  displayed (trace (notify desktop (VString "") (VString "B") (VString "granted"))) <>
    [(VString "", {| body := VString "B"; tag := VString "health-whisperer" |})].
Proof. repeat split. discriminate. Qed.

(** C2. With the interface present, if the permission is "denied" or
    "default", or if the constructor call throws, [notify] returns "blocked"
    and no notification is displayed.  When the permission read is not
    "granted" the host is not called at all and is left as it was. *)
Theorem notify_blocked (P : Platform) (s : state P) (title body : value) :
  Notification_in_window P s = true ->
  Notification_permission P s = Normal (VString "denied") \/
  Notification_permission P s = Normal (VString "default") \/
  ((exists v, Notification_permission P s = Normal v) /\
   exists e s1, new_Notification P (notification_title title)
                  (notification_options body) s = (Throw e, s1)) ->
  result (notify P title body s) = Normal (VString "blocked") /\
  displayed (trace (notify P title body s)) = [] /\
  (forall v, Notification_permission P s = Normal v -> v <> VString "granted" ->
             notify P title body s = Run (Normal (VString "blocked")) s []).
Proof.
  intros H Hcase.
  assert (Hrefused : forall v, Notification_permission P s = Normal v ->
                               v <> VString "granted" ->
                               notify P title body s = Run (Normal (VString "blocked")) s [])
    by (intros v Hp Hv; now apply notify_refused with v).
  split; [| split; [| exact Hrefused]].
  - destruct Hcase as [Hd | [Hd | [[v Hv] (e & s1 & Hc)]]].
    + rewrite (Hrefused _ Hd); [reflexivity | discriminate].
    + rewrite (Hrefused _ Hd); [reflexivity | discriminate].
    + destruct (strict_equal v (VString "granted")) eqn:Eg.
      * apply strict_equal_string in Eg. subst v.
        now rewrite (notify_construction_throws _ _ _ _ H Hv Hc).
      * rewrite (Hrefused _ Hv); [reflexivity |].
        intros Hg. apply strict_equal_string in Hg. congruence.
  - destruct Hcase as [Hd | [Hd | [[v Hv] (e & s1 & Hc)]]].
    + rewrite (Hrefused _ Hd); [reflexivity | discriminate].
    + rewrite (Hrefused _ Hd); [reflexivity | discriminate].
    + destruct (strict_equal v (VString "granted")) eqn:Eg.
      * apply strict_equal_string in Eg. subst v.
        now rewrite (notify_construction_throws _ _ _ _ H Hv Hc).
      * rewrite (Hrefused _ Hv); [reflexivity |].
        intros Hg. apply strict_equal_string in Hg. congruence.
Qed.

Lemma notify_blocked_witness :
  (result (notify desktop (VString "T") (VString "B") (VString "denied")) =
     Normal (VString "blocked") /\
   displayed (trace (notify desktop (VString "T") (VString "B") (VString "denied"))) = []) /\
  (result (notify mobile (VString "T") (VString "B") (VString "granted")) =
     Normal (VString "blocked") /\
   displayed (trace (notify mobile (VString "T") (VString "B") (VString "granted"))) = []).
Proof.
  split.
  - split;
      apply (@notify_blocked desktop (VString "denied") (VString "T") (VString "B"));
      try reflexivity; left; reflexivity.
  - split;
      apply (@notify_blocked mobile (VString "granted") (VString "T") (VString "B"));
      try reflexivity; right; right;
      (split; [exists (VString "granted") | exists (VObject 8), (VString "granted")]);
      reflexivity.
Defined.







(** C9, as the code has it.  [notify] returns one of "shown", "blocked",
    "unsupported" on every host and for all arguments, unless the read of
    [Notification.permission] throws, which it then throws on.  On a host
    that reports only "granted", "denied" or "default", as
    [Notification.permission] and as the answer of the prompt,
    [permissionStatus] returns one of the four permission states, [notify]
    returns one of its three strings, and the promise of
    [requestPermission] is fulfilled with one of the four states unless the
    prompt never settles. *)
Theorem results_in_range (P : Platform) :
  (forall s title body,
     (exists v, result (notify P title body s) = Normal v /\ In v NotificationResult) \/
     (exists e, result (notify P title body s) = Throw e /\
                Notification_in_window P s = true /\
                Notification_permission P s = Throw e)) /\
  (reports_standard P ->
   forall s,
     (exists v, result (permissionStatus P s) = Normal v /\ In v PermissionState) /\
     (forall title body,
        exists v, result (notify P title body s) = Normal v /\ In v NotificationResult) /\
     match result (requestPermission P s) with
     | Fulfilled v => In v PermissionState
     | Rejected _ => False
     | Pending => exists s1, Notification_requestPermission P s = (NeverSettles, s1)
     end).
Proof.
  assert (Hin : forall v, standard_permission v -> In v PermissionState).
  { intros v [-> | [-> | ->]]; simpl; auto. }
  split; [intros; apply notify_returns_or_throws |].
  intros [Hperm Hanswer] s.
  assert (Hstatus : forall s', exists v, result (permissionStatus P s') = Normal v /\
                                         In v PermissionState).
  { intros s'. rewrite permissionStatus_run. cbn [result].
    destruct (Notification_in_window P s').
    - destruct (Hperm s') as (v & -> & Hv). eauto.
    - eexists. split; [reflexivity | simpl; auto]. }
  split; [apply Hstatus | split].
  - intros title body.
    destruct (notify_returns_or_throws P s title body) as [Hv | (e & _ & _ & He)];
      [exact Hv |].
    destruct (Hperm s) as (v & Hv & _). congruence.
  - destruct (Notification_in_window P s) eqn:H.
    + rewrite (requestPermission_prompted _ _ H).
      destruct (Notification_requestPermission P s) as [[e | v | e | ] s1] eqn:E;
        cbn [result].
      * destruct (Hstatus s1) as (v & -> & Hv). exact Hv.
      * apply Hin, (Hanswer s v s1 E).
      * destruct (Hstatus s1) as (v & -> & Hv). exact Hv.
      * now exists s1.
    + rewrite (requestPermission_absent _ _ H). simpl. auto.
Qed.

Lemma standard_browser_reports_standard (allows : bool) :
  reports_standard (standard_browser allows).
Proof.
  split.
  - intros c. exists (consent_value c). split; [reflexivity |].
    destruct c; unfold standard_permission; simpl; auto.
  - intros c r c1 H. injection H as <- _.
    destruct c, allows; unfold standard_permission; simpl; auto.
Qed.

Lemma results_in_range_witness :
  (exists v, result (permissionStatus (standard_browser true) Default) = Normal v /\
             In v PermissionState) /\
  In (VString "granted") PermissionState.
Proof.
  split.
  - apply (proj2 (results_in_range (standard_browser true))
                 (standard_browser_reports_standard true) Default).
  - apply (proj2 (proj2 (proj2 (results_in_range (standard_browser true))
                 (standard_browser_reports_standard true) Default))).
Defined.

(** C9 as stated fails on hosts that report something else.  Where
    [Notification.requestPermission] returns no promise, the promise of
    [requestPermission] is fulfilled with [undefined]; and a permission the
    host reports as anything else is passed through by [permissionStatus]. *)
Lemma requestPermission_undefined_counterexample :
  Notification_in_window callback_era (VString "default") = true /\
  result (requestPermission callback_era (VString "default")) = Fulfilled VUndefined /\
  ~ In VUndefined PermissionState /\
  result (permissionStatus callback_era (VString "prompt")) = Normal (VString "prompt") /\
  ~ In (VString "prompt") PermissionState.
Proof.
  repeat split; simpl; intros H; repeat destruct H as [H | H]; try discriminate H;
    exact H.
Qed.

(** ** Beyond the contract: what a run of [notify] tells *)

(** X1.  The result of [notify] tells whether a notification came to exist:
    "shown" exactly when the constructor call returned, and then that one
    notification is the only one; any other result means none. *)
Theorem notify_shown_iff_displayed (P : Platform) (s : state P) (title body : value) :
  (result (notify P title body s) = Normal (VString "shown") <->
   displayed (trace (notify P title body s)) =
     [(notification_title title, notification_options body)]) /\
  (result (notify P title body s) <> Normal (VString "shown") <->
   displayed (trace (notify P title body s)) = []).
Proof.
  notify_paths P s title body; simpl; (split; split); intros; try reflexivity;
    try discriminate; congruence.
Qed.

(** X2.  [notify] calls the constructor exactly when [permissionStatus] answers
    "granted" in the same state, that is, when the interface is present and
    the permission is the string "granted" and nothing else; otherwise it
    makes no call to the host and leaves it as it was. *)
Theorem notify_constructs_iff_granted (P : Platform) (s : state P) (title body : value) :
  (result (permissionStatus P s) = Normal (VString "granted") <->
   Notification_in_window P s = true /\
   Notification_permission P s = Normal (VString "granted")) /\
  (result (permissionStatus P s) = Normal (VString "granted") <->
   constructor_calls (trace (notify P title body s)) =
     [(notification_title title, notification_options body)]) /\
  (result (permissionStatus P s) <> Normal (VString "granted") ->
   final (notify P title body s) = s /\ trace (notify P title body s) = []).
Proof.
  rewrite permissionStatus_run.
  notify_paths P s title body; simpl; repeat apply conj; intros;
    repeat match goal with
           | H : _ /\ _ |- _ => destruct H
           | H : Normal _ = Normal _ |- _ => injection H as H
           end;
    try reflexivity; try discriminate; try congruence; auto.
Qed.

(** X3.  Each result of [notify] has one cause: "unsupported" the missing
    interface, "shown" a constructor call that returned under the permission
    "granted", "blocked" a permission read that is not "granted" or a
    constructor call that threw, and a throw the read of the permission
    that threw. *)
Theorem notify_result_cause (P : Platform) (s : state P) (title body : value) :
  (result (notify P title body s) = Normal (VString "unsupported") <->
   Notification_in_window P s = false) /\
  (result (notify P title body s) = Normal (VString "shown") <->
   Notification_in_window P s = true /\
   Notification_permission P s = Normal (VString "granted") /\
   exists n s1, new_Notification P (notification_title title)
                  (notification_options body) s = (Normal n, s1)) /\
  (result (notify P title body s) = Normal (VString "blocked") <->
   Notification_in_window P s = true /\
   exists v, Notification_permission P s = Normal v /\
             (v <> VString "granted" \/
              exists e s1, new_Notification P (notification_title title)
                             (notification_options body) s = (Throw e, s1))) /\
  (forall e, result (notify P title body s) = Throw e <->
             Notification_in_window P s = true /\
             Notification_permission P s = Throw e).
Proof.
  split; [| split; [| split; [| intros e; apply notify_throws_iff]]];
    notify_paths P s title body; simpl; split; intros;
    repeat match goal with
           | H : _ /\ _ |- _ => destruct H
           | H : _ \/ _ |- _ => destruct H
           | H : exists _, _ |- _ => destruct H
           | H : Normal _ = Normal _ |- _ => injection H as H; subst
           end;
    try reflexivity; try discriminate; try congruence; eauto 9.
Qed.

(** ** Beyond the contract: [requestPermission] *)




(** ** Beyond the contract: the click handler *)

(** X7.  The click handler returns normally on every host, also when
    [window.focus] throws; all it does is that one call, and [onclick], the
    function handed to the host by [notify], is its change of state. *)
Theorem onclick_handler_never_throws (P : Platform) (s : state P) :
  onclick_handler P s = Run (Normal tt) (snd (window_focus P s)) [] /\
  onclick P s = final (onclick_handler P s).
Proof.
  split; [| reflexivity].
  unfold onclick_handler, try_catch, focus, ret.
  destruct (window_focus P s) as [[[] | e] s1]; reflexivity.
Qed.

Example unfocusable_click :
  onclick_handler unfocusable (VString "granted") =
  Run (P:=unfocusable) (Normal tt) (VString "focus refused") [].
Proof. reflexivity. Qed.

(** ** Beyond the contract: a page's sequence of calls *)

Lemma constructor_calls_app (t1 t2 : list event) :
  constructor_calls (t1 ++ t2) = constructor_calls t1 ++ constructor_calls t2.
Proof.
  induction t1 as [| [ | title o ok | ok] t1 IH]; simpl; rewrite ?IH; reflexivity.
Qed.

Lemma displayed_app (t1 t2 : list event) :
  displayed (t1 ++ t2) = displayed t1 ++ displayed t2.
Proof.
  induction t1 as [| [ | title o [|] | ok] t1 IH]; simpl; rewrite ?IH; reflexivity.
Qed.

Lemma prompts_app (t1 t2 : list event) :
  prompts (t1 ++ t2) = prompts t1 + prompts t2.
Proof. unfold prompts. now rewrite filter_app, length_app. Qed.

Lemma notification_arguments_well_formed (title body : value) :
  well_formed_call (notification_title title, notification_options body).
Proof.
  unfold well_formed_call, notification_title, notification_options, or_else. simpl.
  destruct (to_boolean title) eqn:Et, (to_boolean body) eqn:Eb; auto.
Qed.

(** One call of a page: no prompt, at most one constructor call (none unless
    the call is [notify]), and only with well-formed arguments. *)
Lemma act_trace (P : Platform) (a : action P) (s : state P) :
  prompts (snd (act a s)) = 0 /\
  length (constructor_calls (snd (act a s))) <= notify_calls [a] /\
  Forall well_formed_call (constructor_calls (snd (act a s))).
Proof.
  destruct a as [ | title body | | f]; unfold act.
  - rewrite permissionStatus_run. simpl. auto.
  - notify_paths P s title body; simpl;
      (split; [reflexivity | split; [lia |]]);
      repeat (apply Forall_cons; [apply notification_arguments_well_formed |]);
      apply Forall_nil.
  - rewrite isInIframe_run. simpl. auto.
  - simpl. auto.
Qed.

Lemma displayed_among_calls (t : list event) :
  length (displayed t) <= length (constructor_calls t).
Proof.
  induction t as [| [ | title o [|] | ok] t IH]; simpl; lia.
Qed.

(** X10.  Whatever synchronous calls a page makes, in whatever order and however
    the host changes in between: the permission prompt is never invoked, at
    most one notification is constructed and displayed per call of
    [notify], and every constructor call carries a truthy title, a body that
    is truthy or the empty string, and the tag "health-whisperer". *)
Theorem session_invariants (P : Platform) (l : list (action P)) (s : state P) :
  prompts (snd (session l s)) = 0 /\
  length (displayed (snd (session l s))) <= length (constructor_calls (snd (session l s))) /\
  length (constructor_calls (snd (session l s))) <= notify_calls l /\
  Forall well_formed_call (constructor_calls (snd (session l s))).
Proof.
  split; [| split; [apply displayed_among_calls |]]; revert s;
    induction l as [| a l IH]; intros s; simpl; auto.
  - destruct (act a s) as [s1 t1] eqn:Ea.
    specialize (IH s1). destruct (session l s1) as [s2 t2]. simpl in *.
    rewrite prompts_app, IH.
    pose proof (act_trace a s) as [Hp _]. rewrite Ea in Hp. simpl in Hp. lia.
  - destruct (act a s) as [s1 t1] eqn:Ea.
    specialize (IH s1). destruct (session l s1) as [s2 t2]. simpl in *.
    destruct IH as [IHn IHw].
    pose proof (act_trace a s) as (_ & Hn & Hw). rewrite Ea in Hn, Hw. simpl in Hn, Hw.
    rewrite constructor_calls_app, length_app. split.
    + assert (notify_calls (a :: l) = notify_calls [a] + notify_calls l)
        by (destruct a; reflexivity).
      simpl in *. lia.
    + apply Forall_app. auto.
Qed.
